(** * scripts/generate_docs_index.py: a shallow embedding and its properties

    The script lists [docs/weekly-reports], derives a date for every report
    from its file name (or from its modification time), sorts the reports
    newest first and writes two Markdown pages and the [.nojekyll] marker.

    Python values are modelled as follows.
    - [str] is [string]; the pages are written UTF-8 encoded, so the em dash
      of the link text is the three bytes of its encoding.  File names are
      strings of 8-bit characters: the classes [\d] and [[A-Za-z]] and
      [str.lower] are the ASCII ones.
    - A call that may raise returns a [result]; [except Exception] catches
      every exception of the model.
    - What the script takes from its host (directory listing, modification
      times, the clock, the local time zone, python-dateutil's parser) is a
      field of the record [Host]. *)

From Stdlib Require Import String Ascii List Arith ZArith Bool Lia Permutation Sorted.
From stdpp Require Import base gmap strings list.

(** ** Python values *)

Module Py.

(** Exceptions that derive from [Exception], the ones a parser raises.
    [KeyboardInterrupt] and [SystemExit] do not derive from it; they are no
    parse failures and are left out. *)
Inductive exn : Type :=
| ValueError
| ParserError
| OverflowError
| TypeError.

Inductive result (A : Type) : Type :=
| Ok (a : A)
| Raise (e : exn).
Arguments Ok {A} a.
Arguments Raise {A} e.

Definition bind {A B} (r : result A) (k : A -> result B) : result B :=
  match r with
  | Ok a => k a
  | Raise e => Raise e
  end.

(** [try: body / except Exception: handler]. *)
Definition try_except {A} (body : result A) (handler : exn -> result A)
  : result A :=
  match body with
  | Ok a => Ok a
  | Raise e => handler e
  end.

(** [datetime.date] and [datetime.datetime] (naive or aware; the zone plays
    no part in [.date()] nor in [strftime] of the fields used). *)
Record date : Type := Date { year : Z; month : Z; day : Z }.

Record datetime : Type :=
  Datetime { dt_date : date; hour : Z; minute : Z; second : Z }.

Definition is_leap (y : Z) : bool :=
  ((y mod 4 =? 0) && (negb (y mod 100 =? 0) || (y mod 400 =? 0)))%Z.

Definition days_in_month (y m : Z) : Z :=
  match m with
  | 1 | 3 | 5 | 7 | 8 | 10 | 12 => 31
  | 4 | 6 | 9 | 11 => 30
  | 2 => if is_leap y then 29 else 28
  | _ => 0
  end%Z.

(** The checks of the [date(year, month, day)] constructor
    ([MINYEAR = 1], [MAXYEAR = 9999]). *)
Definition valid_date (y m d : Z) : bool :=
  ((1 <=? y) && (y <=? 9999) && (1 <=? m) && (m <=? 12)
   && (1 <=? d) && (d <=? days_in_month y m))%Z.

Definition mk_date (y m d : Z) : result date :=
  if valid_date y m d then Ok (Date y m d) else Raise ValueError.

Definition date_ok (d : date) : bool := valid_date (year d) (month d) (day d).

(** Order of dates, as of the triples (year, month, day). *)
Definition date_ltb (a b : date) : bool :=
  ((year a <? year b)
   || ((year a =? year b)
       && ((month a <? month b)
           || ((month a =? month b) && (day a <? day b)))))%Z.

(** *** Characters and numbers *)

Definition char_in (lo hi : ascii) (c : ascii) : bool :=
  (nat_of_ascii lo <=? nat_of_ascii c) && (nat_of_ascii c <=? nat_of_ascii hi).

Definition is_digit : ascii -> bool := char_in "0" "9".

Definition is_alpha (c : ascii) : bool := char_in "A" "Z" c || char_in "a" "z" c.

Definition is_char (a c : ascii) : bool := Ascii.eqb a c.

Definition digit_val (c : ascii) : Z := (Z.of_nat (nat_of_ascii c) - 48)%Z.

Definition digit_char (n : Z) : ascii := ascii_of_nat (Z.to_nat (48 + n mod 10)%Z).

(** ["%02d"] and ["%04d"] on the values a date or a time of day holds
    (below 100, below 10000). *)
Definition fmt_02d (n : Z) : string :=
  String (digit_char (n / 10)) (String (digit_char n) EmptyString).

Definition fmt_04d (n : Z) : string :=
  String (digit_char (n / 1000))
    (String (digit_char (n / 100))
       (String (digit_char (n / 10)) (String (digit_char n) EmptyString))).

(** [date.isoformat()]. *)
Definition isoformat (d : date) : string :=
  fmt_04d (year d) +:+ "-" +:+ fmt_02d (month d) +:+ "-" +:+ fmt_02d (day d).

(** [dt.strftime('%Y-%m-%d %H:%M UTC')], for the four-digit years a clock
    reads. *)
Definition strftime_minute_utc (t : datetime) : string :=
  isoformat (dt_date t) +:+ " " +:+ fmt_02d (hour t) +:+ ":"
  +:+ fmt_02d (minute t) +:+ " UTC".

(** *** [datetime.strptime(s, "%Y-%m-%d")]

    [_strptime] turns the format into the regular expression
    [(?P<Y>\d\d\d\d)-(?P<m>1[0-2]|0[1-9]|[1-9])-(?P<d>3[0-1]|[1-2]\d|0[1-9]|[1-9]| [1-9])]
    and matches it at the start of the string.  Each directive below lists
    its candidate readings, the regular expression's first choice first, as
    pairs of the number read and the text left. *)

Definition two_chars (p q : ascii -> bool) (s : string) : list (Z * string) :=
  match s with
  | String a (String b r) =>
      if p a && q b then [((10 * digit_val a + digit_val b)%Z, r)] else []
  | _ => []
  end.

Definition one_char (p : ascii -> bool) (s : string) : list (Z * string) :=
  match s with
  | String a r => if p a then [(digit_val a, r)] else []
  | _ => []
  end.

Definition space_char (p : ascii -> bool) (s : string) : list (Z * string) :=
  match s with
  | String a (String b r) =>
      if is_char " " a && p b then [(digit_val b, r)] else []
  | _ => []
  end.

Definition directive_Y (s : string) : list (Z * string) :=
  match s with
  | String a (String b (String c (String d r))) =>
      if is_digit a && is_digit b && is_digit c && is_digit d
      then [((1000 * digit_val a + 100 * digit_val b
              + 10 * digit_val c + digit_val d)%Z, r)]
      else []
  | _ => []
  end.

Definition directive_m (s : string) : list (Z * string) :=
  two_chars (is_char "1") (char_in "0" "2") s
  ++ two_chars (is_char "0") (char_in "1" "9") s
  ++ one_char (char_in "1" "9") s.

Definition directive_d (s : string) : list (Z * string) :=
  two_chars (is_char "3") (char_in "0" "1") s
  ++ two_chars (char_in "1" "2") is_digit s
  ++ two_chars (is_char "0") (char_in "1" "9") s
  ++ one_char (char_in "1" "9") s
  ++ space_char (char_in "1" "9") s.

Definition literal (a : ascii) (s : string) : list string :=
  match s with
  | String c r => if is_char a c then [r] else []
  | EmptyString => []
  end.

(** All the ways the format's regular expression matches a prefix of [s],
    in the order the backtracking matcher finds them: the year, then what
    follows it. *)
Definition month_day_matches (s1 : string) : list (Z * Z * string) :=
  s2 ← literal "-" s1;
  '(m, s3) ← directive_m s2;
  s4 ← literal "-" s3;
  '(d, s5) ← directive_d s4;
  [(m, d, s5)].

Definition format_matches (s : string) : list (Z * Z * Z * string) :=
  '(y, s1) ← directive_Y s;
  '(m, d, s5) ← month_day_matches s1;
  [(y, m, d, s5)].

Definition strptime_Ymd (s : string) : result datetime :=
  match format_matches s with
  | [] => Raise ValueError                      (* does not match format *)
  | (y, m, d, rest) :: _ =>
      match rest with
      | EmptyString =>
          bind (mk_date y m d) (fun dd => Ok (Datetime dd 0 0 0))
      | String _ _ => Raise ValueError          (* unconverted data remains *)
      end
  end.

(** [s.lower()]. *)
Definition lower_char (c : ascii) : ascii :=
  if char_in "A" "Z" c then ascii_of_nat (nat_of_ascii c + 32) else c.

Fixpoint lower (s : string) : string :=
  match s with
  | EmptyString => EmptyString
  | String c r => String (lower_char c) (lower r)
  end.

Fixpoint startswith (p s : string) : bool :=
  match p, s with
  | EmptyString, _ => true
  | String a p', String b s' => Ascii.eqb a b && startswith p' s'
  | String _ _, EmptyString => false
  end.

Fixpoint endswith (s suffix : string) : bool :=
  String.eqb s suffix
  || match s with
     | EmptyString => false
     | String _ r => endswith r suffix
     end.

(** [posixpath.join] of two components. *)
Definition path_join (a b : string) : string :=
  if startswith "/" b then b
  else if String.eqb a "" || endswith a "/" then a +:+ b
  else a +:+ "/" +:+ b.

End Py.

(** ** Regular expressions, as far as the script's two patterns need them *)

Module Re.
Import Py.

(** One element of a pattern: a character class repeated between [lo] and
    [hi] times ([hi = None]: no upper bound), greedy. *)
Record item : Type := Item { cls : ascii -> bool; lo : nat; hi : option nat }.

Definition exactly (n : nat) (p : ascii -> bool) : item := Item p n (Some n).
Definition between (a b : nat) (p : ascii -> bool) : item := Item p a (Some b).
Definition at_least (n : nat) (p : ascii -> bool) : item := Item p n None.
Definition optional (p : ascii -> bool) : item := Item p 0 (Some 1).

(** A pattern is a list of alternatives, each a sequence of items. *)
Definition pattern : Type := list (list item).

(** The texts left after the repetition has taken its characters: the
    longest repetition first, then the shorter ones the matcher backtracks
    to. *)
Fixpoint repeat_class (p : ascii -> bool) (lo : nat) (hi : option nat)
    (s : string) : list string :=
  let stop := match lo with O => [s] | S _ => [] end in
  match hi with
  | Some O => stop
  | _ =>
      match s with
      | String c r =>
          if p c then repeat_class p (pred lo) (pred <$> hi) r ++ stop
          else stop
      | EmptyString => stop
      end
  end.

Fixpoint match_seq (items : list item) (s : string) : list string :=
  match items with
  | [] => [s]
  | it :: rest =>
      s' ← repeat_class (cls it) (lo it) (hi it) s; match_seq rest s'
  end.

(** [pattern.match(s)]: the text left by the first way to match at the
    start of [s]. *)
Definition match_here (r : pattern) (s : string) : option string :=
  head (alt ← r; match_seq alt s).

(** A match object: where it starts and [group(0)]. *)
Record Match : Type := MkMatch { m_start : nat; group0 : string }.

Fixpoint search_from (r : pattern) (pos : nat) (s : string) : option Match :=
  match match_here r s with
  | Some rest =>
      Some (MkMatch pos
              (String.substring 0 (String.length s - String.length rest) s))
  | None =>
      match s with
      | EmptyString => None
      | String _ s' => search_from r (S pos) s'
      end
  end.

(** [pattern.search(s)]: the leftmost match. *)
Definition search (r : pattern) (s : string) : option Match :=
  search_from r 0 s.

End Re.

(** ** The script *)

Import Py Re.

Definition nl : string := String (ascii_of_nat 10) EmptyString.

Definition DOCS : string := "docs".
Definition WEEKLY_DIR : string := path_join DOCS "weekly-reports".

(** What a run reads from its host.  [dparse s] is
    [dparser.parse(s, dayfirst=True, fuzzy=True)] of python-dateutil. *)
Record Host : Type := MkHost {
  timestamp : Type;
  listdir : list string;                 (* os.listdir(WEEKLY_DIR) *)
  getmtime : string -> timestamp;        (* os.path.getmtime *)
  fromtimestamp : timestamp -> datetime; (* datetime.fromtimestamp, local time *)
  utcnow : datetime;                     (* datetime.utcnow() *)
  dparse : string -> result datetime
}.

(** The files the script touches: directories and the text of regular
    files, by path.  Runs in which a file system call fails are fatal to
    the script and are not modelled. *)
Record FS : Type := MkFS { dirs : gset string; contents : gmap string string }.

Definition makedirs (fs : FS) : FS :=
  MkFS ({[ DOCS ]} ∪ {[ WEEKLY_DIR ]} ∪ dirs fs) (contents fs).

(** [open(path, "a").close()]. *)
Definition open_append_close (path : string) (fs : FS) : FS :=
  match contents fs !! path with
  | Some _ => fs
  | None => MkFS (dirs fs) (<[path := ""%string]> (contents fs))
  end.

(** [with open(path, "w") as fh: fh.writelines(lines)]. *)
Definition write_lines (path : string) (lines : list string) (fs : FS) : FS :=
  MkFS (dirs fs) (<[path := String.concat "" lines]> (contents fs)).

(** [files]: the [.md] files of the directory, [index.md] itself left out. *)
Definition is_report (f : string) : bool :=
  endswith (lower f) ".md" && negb (String.eqb f "index.md").

Definition files (h : Host) : list string := filter is_report (listdir h).

(** [\d{4}-\d{2}-\d{2}]; its one group is the whole match. *)
Definition date_regex_iso : pattern :=
  [[exactly 4 is_digit; exactly 1 (is_char "-"); exactly 2 is_digit;
    exactly 1 (is_char "-"); exactly 2 is_digit]].

Definition is_sep (c : ascii) : bool :=
  is_char "-" c || is_char "_" c || is_char " " c.

(** [(\d{1,2}[-_ ]?[A-Za-z]{3,}[-_ ]?\d{4})|([A-Za-z]{3,}[-_ ]?\d{1,2}[-_ ]?\d{4})] *)
Definition date_like : pattern :=
  [[between 1 2 is_digit; optional is_sep; at_least 3 is_alpha;
    optional is_sep; exactly 4 is_digit];
   [at_least 3 is_alpha; optional is_sep; between 1 2 is_digit;
    optional is_sep; exactly 4 is_digit]].

(** [return <datetime>.date()]. *)
Definition return_date (r : result datetime) : result (option date) :=
  bind r (fun t => Ok (Some (dt_date t))).

Definition extract_date_from_name (dparse : string -> result datetime)
    (fname : string) : result (option date) :=
  (* 3) fuzzy parse whole filename *)
  let layer3 :=
    try_except (return_date (dparse fname)) (fun _ => Ok None) in
  (* 2) partial patterns like 15-sept-2025 *)
  let layer2 :=
    match search date_like fname with
    | Some m2 =>
        try_except (return_date (dparse (group0 m2))) (fun _ => layer3)
    | None => layer3
    end in
  (* 1) strict ISO format *)
  match search date_regex_iso fname with
  | Some m =>
      try_except (return_date (strptime_Ymd (group0 m))) (fun _ => layer2)
  | None => layer2
  end.

Definition file_mtime_date (h : Host) (path : string) : date :=
  let ts := getmtime h path in
  dt_date (fromtimestamp h ts).

(** The body of [for f in files], [pairs] being the list built so far. *)
Definition pairs_step (h : Host) (f : string)
    (pairs : list (string * option date))
  : result (list (string * option date)) :=
  let path := path_join WEEKLY_DIR f in
  bind (extract_date_from_name (dparse h) f) (fun d =>
    let d := match d with
             | None => Some (file_mtime_date h path)
             | Some _ => d
             end in
    Ok (pairs ++ [(f, d)])).

Fixpoint pairs_loop (h : Host) (fs : list string)
    (pairs : list (string * option date))
  : result (list (string * option date)) :=
  match fs with
  | [] => Ok pairs
  | f :: rest => bind (pairs_step h f pairs) (pairs_loop h rest)
  end.

Definition build_pairs (h : Host) : result (list (string * option date)) :=
  pairs_loop h (files h) [].

(** [key=lambda x: (x[1] is None, x[1])]. *)
Definition sort_key (x : string * option date) : bool * option date :=
  (match snd x with None => true | Some _ => false end, snd x).

(** [a < b] on such keys: tuples compare by their first differing
    component.  When the first components agree both dates are present or
    both absent (a date is never compared with [None]). *)
Definition key_ltb (a b : bool * option date) : bool :=
  match fst a, fst b with
  | false, true => true
  | true, false => false
  | _, _ =>
      match snd a, snd b with
      | Some x, Some y => date_ltb x y
      | _, _ => false
      end
  end.

(** [list.sort(key=..., reverse=True)]: largest key first, entries with
    equal keys in their original order. *)
Fixpoint insert_desc {A K} (key : A -> K) (ltb : K -> K -> bool)
    (x : A) (l : list A) : list A :=
  match l with
  | [] => [x]
  | y :: l' =>
      if ltb (key x) (key y) then y :: insert_desc key ltb x l'
      else x :: y :: l'
  end.

Definition sort_reverse {A K} (key : A -> K) (ltb : K -> K -> bool)
    (l : list A) : list A :=
  foldr (insert_desc key ltb) [] l.

Definition sort_pairs (pairs : list (string * option date))
  : list (string * option date) :=
  sort_reverse sort_key key_ltb pairs.

(** The body of [for fname, dt in pairs]. *)
Definition lines_step (lines : list string) (e : string * option date)
  : list string :=
  let '(fname, dt) := e in
  let display :=
    match dt with
    | Some d => isoformat d +:+ " — " +:+ fname    (* if dt: *)
    | None => fname
    end in
  lines ++ ["- [" +:+ display +:+ "](" +:+ fname +:+ ")" +:+ nl].

Definition lines (pairs : list (string * option date)) : list string :=
  let lines := ["# Weekly Reports Index" +:+ nl +:+ nl;
                "_This page lists all available weekly reports._"
                +:+ nl +:+ nl] in
  match pairs with
  | [] => lines ++ ["No reports yet." +:+ nl]
  | _ :: _ => fold_left lines_step pairs lines
  end.

Definition main_lines (now : datetime) : list string :=
  ["# Thesis Diary — Weekly Reports" +:+ nl +:+ nl;
   "_Updated: " +:+ strftime_minute_utc now +:+ "_" +:+ nl +:+ nl;
   "## Browse" +:+ nl +:+ nl;
   "- [Weekly Reports](/weekly-reports/)" +:+ nl +:+ nl;
   "---" +:+ nl +:+ nl +:+ "Click above to see individual weekly reports."
   +:+ nl].

Definition nojekyll_path : string := path_join DOCS ".nojekyll".
Definition weekly_index_path : string := path_join WEEKLY_DIR "index.md".
Definition main_index_path : string := path_join DOCS "index.md".

(** One run of the script: the file system it leaves and what it prints. *)
Definition script (h : Host) (fs : FS) : result (FS * string) :=
  let fs := makedirs fs in
  bind (build_pairs h) (fun pairs =>
    let pairs := sort_pairs pairs in
    let fs := open_append_close nojekyll_path fs in
    let fs := write_lines weekly_index_path (lines pairs) fs in
    let fs := write_lines main_index_path (main_lines (utcnow h)) fs in
    Ok (fs, "Generated: " +:+ weekly_index_path +:+ " and "
            +:+ main_index_path +:+ nl)).

(** *** A host for the examples

    python-dateutil 2.9 reads ["15-sept-2025"] as 15 September 2025 and
    rejects the other strings the examples below hand to it; this stand-in
    rejects every other string. *)
Definition dateutil_sample (s : string) : result datetime :=
  if String.eqb s "15-sept-2025" then Ok (Datetime (Date 2025 9 15) 0 0 0)
  else Raise ParserError.

Definition sample_host (names : list string) : Host :=
  {| timestamp := Z;
     listdir := names;
     getmtime := fun _ => 1709380800%Z;
     fromtimestamp := fun _ => Datetime (Date 2024 3 2) 12 0 0;
     utcnow := Datetime (Date 2025 9 20) 8 30 59;
     dparse := dateutil_sample |}.

Definition empty_fs : FS := MkFS ∅ ∅.

(** ** The specification's notions

    The definitions of this part follow the wording of the specification;
    the theorems compare them with the script. *)

(** [s] begins with four digits, a hyphen, two digits, a hyphen and two
    digits: the ten characters and what follows them. *)
Definition iso_shape (s : string) : option (string * string) :=
  match s with
  | String y1 (String y2 (String y3 (String y4 (String h1
      (String m1 (String m2 (String h2 (String d1 (String d2 r))))))))) =>
      if is_digit y1 && is_digit y2 && is_digit y3 && is_digit y4
         && is_char "-" h1 && is_digit m1 && is_digit m2
         && is_char "-" h2 && is_digit d1 && is_digit d2
      then Some (String y1 (String y2 (String y3 (String y4 (String h1
                   (String m1 (String m2 (String h2 (String d1
                      (String d2 EmptyString))))))))), r)
      else None
  | _ => None
  end.

(** The leftmost substring of that shape. *)
Fixpoint first_iso_shaped (s : string) : option string :=
  match iso_shape s with
  | Some (text, _) => Some text
  | None =>
      match s with
      | EmptyString => None
      | String _ r => first_iso_shaped r
      end
  end.

(** [s] contains the text [t]. *)
Definition contains (s t : string) : Prop :=
  exists pre post : string, s = pre +:+ t +:+ post.

(** The three layers of date extraction, each a try-parse that yields a
    date or nothing, and the first success among them. *)
Definition to_option {A} (r : result A) : option A :=
  match r with
  | Ok a => Some a
  | Raise _ => None
  end.

Definition layer1 (fname : string) : option date :=
  m ← search date_regex_iso fname;
  dt_date <$> to_option (strptime_Ymd (group0 m)).

Definition layer2 (dparse : string -> result datetime) (fname : string)
  : option date :=
  m ← search date_like fname;
  dt_date <$> to_option (dparse (group0 m)).

Definition layer3 (dparse : string -> result datetime) (fname : string)
  : option date :=
  dt_date <$> to_option (dparse fname).

Fixpoint first_success (tries : list (option date)) : option date :=
  match tries with
  | [] => None
  | Some d :: _ => Some d
  | None :: rest => first_success rest
  end.

Definition date_from_name (dparse : string -> result datetime)
    (fname : string) : option date :=
  first_success [layer1 fname; layer2 dparse fname; layer3 dparse fname].

(** The file's modification date. *)
Definition modification_date (h : Host) (f : string) : date :=
  dt_date (fromtimestamp h (getmtime h (path_join WEEKLY_DIR f))).

(** The derived date of a report: from its name, else its modification
    date. *)
Definition derived_date (h : Host) (f : string) : date :=
  match date_from_name (dparse h) f with
  | Some d => d
  | None => modification_date h f
  end.

Definition entry (h : Host) (f : string) : string * option date :=
  (f, Some (derived_date h f)).





(** In a list sorted with [key] and [reverse=True], [x] may come before
    [y]: its key is not the smaller one. *)
Definition not_below {A K} (key : A -> K) (ltb : K -> K -> bool) (x y : A)
  : Prop :=
  ltb (key x) (key y) = false.

(** The listing document. *)
Definition heading_line : string := "# Weekly Reports Index" +:+ nl +:+ nl.
Definition description_line : string :=
  "_This page lists all available weekly reports._" +:+ nl +:+ nl.
Definition placeholder_line : string := "No reports yet." +:+ nl.

Definition link_text (e : string * option date) : string :=
  match snd e with
  | Some d => isoformat d +:+ " — " +:+ fst e
  | None => fst e
  end.

Definition link_line (e : string * option date) : string :=
  "- [" +:+ link_text e +:+ "](" +:+ fst e +:+ ")" +:+ nl.

Definition is_link_line (line : string) : bool := startswith "- [" line.

Definition listing_document (entries : list (string * option date))
  : list string :=
  heading_line :: description_line
  :: match entries with
     | [] => [placeholder_line]
     | _ :: _ => link_line <$> entries
     end.



(** The file system after a run. *)
Definition run (h : Host) (fs : FS) : FS :=
  match script h fs with
  | Ok (fs', _) => fs'
  | Raise _ => fs
  end.

(** *** What a pattern takes

    A declarative reading of the patterns, to compare the matcher with. *)

Fixpoint string_forall (p : ascii -> bool) (s : string) : bool :=
  match s with
  | EmptyString => true
  | String c r => p c && string_forall p r
  end.

(** [t] is a run of characters of the item's class, of a length the item
    allows. *)
Definition item_takes (it : item) (t : string) : Prop :=
  string_forall (cls it) t = true
  /\ (lo it <= String.length t)%nat
  /\ match hi it with
     | Some n => (String.length t <= n)%nat
     | None => True
     end.

(** [t] splits into one run per item, in order. *)
Fixpoint seq_takes (items : list item) (t : string) : Prop :=
  match items with
  | [] => t = EmptyString
  | it :: rest =>
      exists t1 t2 : string,
        t = t1 +:+ t2 /\ item_takes it t1 /\ seq_takes rest t2
  end.

Definition pattern_takes (r : pattern) (t : string) : Prop :=
  exists alt : list item, alt ∈ r /\ seq_takes alt t.


#[global] Instance date_eq_dec : EqDecision date.
Proof. solve_decision. Defined.

(** ** Facts about the Python layer *)

Module PyFacts.

#[local] Open Scope Z_scope.

Lemma mod10_cases (n : Z) :
  n mod 10 = 0 \/ n mod 10 = 1 \/ n mod 10 = 2 \/ n mod 10 = 3 \/ n mod 10 = 4
  \/ n mod 10 = 5 \/ n mod 10 = 6 \/ n mod 10 = 7 \/ n mod 10 = 8 \/ n mod 10 = 9.
Proof. pose proof (Z.mod_pos_bound n 10). lia. Qed.

Ltac by_digit n :=
  unfold digit_char;
  destruct (mod10_cases n) as [E|[E|[E|[E|[E|[E|[E|[E|[E|E]]]]]]]]];
  rewrite E; reflexivity.

Lemma is_digit_digit_char (n : Z) : is_digit (digit_char n) = true.
Proof. by_digit n. Qed.

Lemma digit_val_digit_char (n : Z) : digit_val (digit_char n) = n mod 10.
Proof. by_digit n. Qed.

Lemma directive_Y_fmt_04d (y : Z) (r : string) :
  0 <= y <= 9999 -> directive_Y (fmt_04d y +:+ r) = [(y, r)].
Proof.
  intros Hy. unfold fmt_04d. cbv [String.append]. cbn [directive_Y].
  rewrite !is_digit_digit_char, !digit_val_digit_char. cbn [andb].
  do 2 f_equal. Z.div_mod_to_equations. lia.
Qed.

Lemma month_day_matches_fmt (m d : Z) :
  1 <= m <= 12 -> 1 <= d <= 31 ->
  head (month_day_matches ("-" +:+ fmt_02d m +:+ "-" +:+ fmt_02d d))
  = Some (m, d, ""%string).
Proof.
  intros Hm Hd.
  assert (All : Forall (fun m => Forall (fun d =>
            head (month_day_matches ("-" +:+ fmt_02d m +:+ "-" +:+ fmt_02d d))
            = Some (m, d, ""%string)) (seqZ 1 31)) (seqZ 1 12)).
  { apply (bool_decide_unpack _). vm_compute. exact I. }
  rewrite Forall_forall in All.
  assert (Hin : m ∈ seqZ 1 12) by (apply elem_of_seqZ; lia).
  specialize (All m Hin). rewrite Forall_forall in All.
  apply All, elem_of_seqZ. lia.
Qed.

Lemma days_in_month_le_31 (y m : Z) : days_in_month y m <= 31.
Proof.
  unfold days_in_month.
  repeat match goal with
         | |- context [match ?x with _ => _ end] => destruct x
         end; lia.
Qed.

Lemma valid_date_bounds (y m d : Z) :
  valid_date y m d = true -> 1 <= y <= 9999 /\ 1 <= m <= 12 /\ 1 <= d <= 31.
Proof.
  unfold valid_date. rewrite !andb_true_iff, !Z.leb_le.
  pose proof (days_in_month_le_31 y m). lia.
Qed.

(** [strptime] reads back what [isoformat] writes. *)
Lemma strptime_isoformat (d : date) :
  date_ok d = true -> strptime_Ymd (isoformat d) = Ok (Datetime d 0 0 0).
Proof.
  destruct d as [y m dd]. unfold date_ok. cbn [year month day]. intros Hv.
  destruct (valid_date_bounds _ _ _ Hv) as (Hy & Hm & Hd).
  unfold strptime_Ymd, format_matches, isoformat. cbn [year month day].
  rewrite directive_Y_fmt_04d by lia.
  pose proof (month_day_matches_fmt m dd Hm Hd) as Hh.
  cbn -[mk_date month_day_matches fmt_02d String.append].
  destruct (month_day_matches _) as [|[[m' d'] r'] l]; [discriminate|].
  injection Hh as -> -> ->. cbn -[mk_date].
  unfold mk_date. rewrite Hv. reflexivity.
Qed.

(** *** Strings *)

Lemma append_cons (c : ascii) (s t : string) :
  String c s +:+ t = String c (s +:+ t).
Proof. reflexivity. Qed.


Lemma append_assoc (a b c : string) : (a +:+ b) +:+ c = a +:+ b +:+ c.
Proof.
  induction a as [|x a IH]; [reflexivity|].
  rewrite !append_cons, IH. reflexivity.
Qed.

Lemma length_append (a b : string) :
  String.length (a +:+ b) = (String.length a + String.length b)%nat.
Proof.
  induction a as [|x a IH]; [reflexivity|].
  rewrite append_cons. cbn [String.length]. rewrite IH. reflexivity.
Qed.

Lemma substring_append_l (t r : string) :
  String.substring 0 (String.length t) (t +:+ r) = t.
Proof.
  induction t as [|x t IH].
  - destruct r; reflexivity.
  - rewrite append_cons. cbn [String.length String.substring].
    rewrite IH. reflexivity.
Qed.





Lemma date_ltb_lt (a b : date) :
  date_ltb a b = true <->
  year a < year b
  \/ (year a = year b
      /\ (month a < month b \/ (month a = month b /\ day a < day b))).
Proof.
  unfold date_ltb.
  rewrite !orb_true_iff, !andb_true_iff, !orb_true_iff, !andb_true_iff,
    !Z.ltb_lt, !Z.eqb_eq.
  reflexivity.
Qed.

End PyFacts.

(** ** Facts about the two patterns *)

Module ReFacts.

Ltac case_class :=
  match goal with
  | |- context [is_digit ?c] => is_var c; destruct (is_digit c) eqn:?
  | |- context [is_char ?x ?c] => is_var c; destruct (is_char x c) eqn:?
  end.

Ltac use_cases :=
  repeat match goal with
         | H : is_digit _ = _ |- _ => rewrite H
         | H : is_char _ _ = _ |- _ => rewrite H
         end.

Lemma repeat_class_none_left (p : ascii -> bool) (lo : nat) (s : string) :
  repeat_class p lo (Some 0) s = match lo with O => [s] | S _ => [] end.
Proof. destruct s; reflexivity. Qed.

Ltac run_pattern :=
  repeat (cbn -[is_digit is_char]; rewrite ?repeat_class_none_left;
          use_cases; try reflexivity; try case_class).

(** At a given position the ISO pattern matches exactly the ISO-shaped
    texts, and leaves what follows the ten characters. *)
Lemma match_here_iso (s : string) :
  match_here date_regex_iso s = snd <$> iso_shape s.
Proof.
  unfold match_here, date_regex_iso, exactly.
  do 10 (destruct s as [|? s]; [run_pattern|]).
  run_pattern.
Qed.

Lemma iso_shape_split (s t r : string) :
  iso_shape s = Some (t, r) -> s = t +:+ r /\ String.length t = 10%nat.
Proof.
  unfold iso_shape.
  do 10 (destruct s as [|? s]; [discriminate|]).
  destruct (_ && _); [|discriminate].
  intros [= <- <-]. split; reflexivity.
Qed.

(** Searching with the ISO pattern finds the leftmost ISO-shaped text. *)
Lemma search_from_iso (s : string) (pos : nat) :
  group0 <$> search_from date_regex_iso pos s = first_iso_shaped s.
Proof.
  revert pos. induction s as [|c s IH]; intros pos.
  - reflexivity.
  - cbn [search_from first_iso_shaped]. rewrite match_here_iso.
    destruct (iso_shape (String c s)) as [[t r]|] eqn:E.
    + destruct (iso_shape_split _ _ _ E) as [Hs Ht].
      cbn [fmap option_fmap option_map snd group0]. f_equal.
      rewrite Hs at 1 2. rewrite PyFacts.length_append.
      replace (String.length t + String.length r - String.length r)%nat
        with (String.length t) by lia.
      apply PyFacts.substring_append_l.
    + cbn [fmap option_fmap option_map]. apply IH.
Qed.

Lemma search_iso (s : string) :
  group0 <$> search date_regex_iso s = first_iso_shaped s.
Proof. apply search_from_iso. Qed.

End ReFacts.

(** ** Facts about the script *)

Module ScriptFacts.

(** The nested [try]/[except] of [extract_date_from_name] amounts to taking
    the first layer that succeeds. *)
Lemma extract_date_from_name_eq (dparse : string -> result datetime)
    (fname : string) :
  extract_date_from_name dparse fname = Ok (date_from_name dparse fname).
Proof.
  unfold extract_date_from_name, date_from_name, layer1, layer2, layer3,
    return_date, try_except, bind, to_option.
  destruct (search date_regex_iso fname) as [m|]; cbn;
    [destruct (strptime_Ymd (group0 m)); cbn; [reflexivity|]|];
    (destruct (search date_like fname) as [m2|]; cbn;
     [destruct (dparse (group0 m2)); cbn; [reflexivity|]|]);
    destruct (dparse fname); reflexivity.
Qed.

Lemma pairs_step_eq (h : Host) (f : string)
    (acc : list (string * option date)) :
  pairs_step h f acc = Ok (acc ++ [entry h f]).
Proof.
  unfold pairs_step. rewrite extract_date_from_name_eq. cbn [bind].
  unfold entry, derived_date, modification_date, file_mtime_date.
  destruct (date_from_name (dparse h) f); reflexivity.
Qed.

Lemma pairs_loop_eq (h : Host) (fs : list string)
    (acc : list (string * option date)) :
  pairs_loop h fs acc = Ok (acc ++ (entry h <$> fs)).
Proof.
  revert acc. induction fs as [|f fs IH]; intros acc; cbn [pairs_loop].
  - rewrite app_nil_r. reflexivity.
  - rewrite pairs_step_eq. cbn [bind]. rewrite IH, <- app_assoc. reflexivity.
Qed.

Lemma build_pairs_eq (h : Host) :
  build_pairs h = Ok (entry h <$> files h).
Proof. unfold build_pairs. rewrite pairs_loop_eq. reflexivity. Qed.

(** *** The sort *)

Section Sort.
Context {A K : Type} (key : A -> K) (ltb : K -> K -> bool).

Hypothesis not_below_trans :
  forall x y z : A, not_below key ltb x y -> not_below key ltb y z -> not_below key ltb x z.
Hypothesis ltb_asym :
  forall x y : A, ltb (key x) (key y) = true -> not_below key ltb y x.

Lemma insert_desc_perm (x : A) (l : list A) :
  insert_desc key ltb x l ≡ₚ x :: l.
Proof.
  induction l as [|y l IH]; cbn [insert_desc]; [reflexivity|].
  destruct (ltb (key x) (key y)); [|reflexivity].
  rewrite IH. apply perm_swap.
Qed.

Lemma sort_reverse_perm (l : list A) : sort_reverse key ltb l ≡ₚ l.
Proof.
  induction l as [|x l IH]; [reflexivity|].
  unfold sort_reverse in *. cbn [foldr].
  rewrite insert_desc_perm, IH. reflexivity.
Qed.

Lemma insert_desc_sorted (x : A) (l : list A) :
  StronglySorted (not_below key ltb) l ->
  StronglySorted (not_below key ltb) (insert_desc key ltb x l).
Proof.
  induction 1 as [|y l Hl IH Hy]; cbn [insert_desc].
  - repeat constructor.
  - destruct (ltb (key x) (key y)) eqn:E.
    + constructor; [exact IH|].
      rewrite insert_desc_perm. constructor; [|exact Hy].
      apply ltb_asym, E.
    + constructor; [constructor; assumption|].
      constructor; [exact E|].
      eapply Forall_impl; [exact Hy|].
      intros z Hz. eapply not_below_trans; [exact E|exact Hz].
Qed.

Lemma sort_reverse_sorted (l : list A) :
  StronglySorted (not_below key ltb) (sort_reverse key ltb l).
Proof.
  induction l as [|x l IH]; [constructor|].
  unfold sort_reverse in *. cbn [foldr]. apply insert_desc_sorted, IH.
Qed.
End Sort.


Lemma date_ltb_false_trans (a b c : date) :
  date_ltb a b = false -> date_ltb b c = false -> date_ltb a c = false.
Proof.
  rewrite <- !not_true_iff_false, !PyFacts.date_ltb_lt. lia.
Qed.

Lemma date_ltb_asym (a b : date) : date_ltb a b = true -> date_ltb b a = false.
Proof.
  rewrite <- not_true_iff_false, !PyFacts.date_ltb_lt. lia.
Qed.

Lemma sort_key_trans (x y z : string * option date) :
  not_below sort_key key_ltb x y -> not_below sort_key key_ltb y z ->
  not_below sort_key key_ltb x z.
Proof.
  unfold not_below, sort_key, key_ltb.
  destruct (snd x), (snd y), (snd z); cbn; try congruence.
  apply date_ltb_false_trans.
Qed.

Lemma sort_key_asym (x y : string * option date) :
  key_ltb (sort_key x) (sort_key y) = true -> not_below sort_key key_ltb y x.
Proof.
  unfold not_below, sort_key, key_ltb.
  destruct (snd x), (snd y); cbn; try congruence.
  apply date_ltb_asym.
Qed.

Lemma sort_pairs_perm (l : list (string * option date)) : sort_pairs l ≡ₚ l.
Proof. apply sort_reverse_perm. Qed.

Lemma sort_pairs_sorted (l : list (string * option date)) :
  StronglySorted (not_below sort_key key_ltb) (sort_pairs l).
Proof. apply sort_reverse_sorted; [exact sort_key_trans|exact sort_key_asym]. Qed.

Lemma entries_dated (h : Host) (e : string * option date) :
  e ∈ sort_pairs (entry h <$> files h) ->
  fst e ∈ files h /\ snd e = Some (derived_date h (fst e)).
Proof.
  rewrite sort_pairs_perm. intros (f & -> & Hf)%list_elem_of_fmap.
  split; [exact Hf|reflexivity].
Qed.

(** *** The two documents *)

Lemma lines_loop_eq (ps : list (string * option date)) (acc : list string) :
  fold_left lines_step ps acc = acc ++ (link_line <$> ps).
Proof.
  revert acc. induction ps as [|[f d] ps IH]; intros acc; cbn [fold_left].
  - rewrite app_nil_r. reflexivity.
  - rewrite IH. unfold lines_step. rewrite <- app_assoc. reflexivity.
Qed.

Lemma lines_eq (ps : list (string * option date)) :
  lines ps = listing_document ps.
Proof.
  unfold lines, listing_document. destruct ps as [|e ps]; [reflexivity|].
  rewrite lines_loop_eq. reflexivity.
Qed.

(** *** A run *)

Lemma script_eq (h : Host) (fs : FS) :
  script h fs
  = Ok (write_lines main_index_path (main_lines (utcnow h))
          (write_lines weekly_index_path
             (lines (sort_pairs (entry h <$> files h)))
             (open_append_close nojekyll_path (makedirs fs))),
        "Generated: " +:+ weekly_index_path +:+ " and " +:+ main_index_path
        +:+ nl).
Proof. unfold script. rewrite build_pairs_eq. reflexivity. Qed.

Lemma run_eq (h : Host) (fs : FS) :
  run h fs
  = write_lines main_index_path (main_lines (utcnow h))
      (write_lines weekly_index_path
         (lines (sort_pairs (entry h <$> files h)))
         (open_append_close nojekyll_path (makedirs fs))).
Proof. unfold run. rewrite script_eq. reflexivity. Qed.

Lemma paths_distinct :
  nojekyll_path <> weekly_index_path /\ nojekyll_path <> main_index_path
  /\ weekly_index_path <> main_index_path.
Proof. repeat split; intros H; vm_compute in H; discriminate H. Qed.

Lemma lookup_open_append_close (path : string) (fs : FS) :
  contents (open_append_close path fs) !! path
  = Some (default ""%string (contents fs !! path)).
Proof.
  unfold open_append_close. destruct (contents fs !! path) eqn:E; cbn.
  - exact E.
  - apply lookup_insert_eq.
Qed.

Lemma lookup_run_nojekyll (h : Host) (fs : FS) :
  contents (run h fs) !! nojekyll_path
  = Some (default ""%string (contents fs !! nojekyll_path)).
Proof.
  destruct paths_distinct as (Hw & Hm & _).
  rewrite run_eq. unfold write_lines. cbn [contents].
  rewrite !lookup_insert_ne by congruence.
  rewrite lookup_open_append_close. reflexivity.
Qed.

Lemma lookup_run_weekly (h : Host) (fs : FS) :
  contents (run h fs) !! weekly_index_path
  = Some (String.concat "" (lines (sort_pairs (entry h <$> files h)))).
Proof.
  destruct paths_distinct as (_ & _ & Hwm).
  rewrite run_eq. unfold write_lines. cbn [contents].
  rewrite lookup_insert_ne by congruence. apply lookup_insert_eq.
Qed.

Lemma lookup_run_main (h : Host) (fs : FS) :
  contents (run h fs) !! main_index_path
  = Some (String.concat "" (main_lines (utcnow h))).
Proof. rewrite run_eq. unfold write_lines. cbn [contents]. apply lookup_insert_eq. Qed.

Lemma filter_link_lines (ps : list (string * option date)) :
  filter is_link_line (link_line <$> ps) = link_line <$> ps.
Proof.
  induction ps as [|e ps IH]; [reflexivity|].
  rewrite fmap_cons, filter_cons_True by reflexivity.
  rewrite IH. reflexivity.
Qed.

Lemma entry_names (h : Host) (fs : list string) : (entry h <$> fs).*1 = fs.
Proof.
  induction fs as [|f fs IH]; [reflexivity|].
  rewrite !fmap_cons, IH. reflexivity.
Qed.

(** *** The filter on directory entries *)


End ScriptFacts.

(** ** Properties of the script *)

(** C4. [extract_date_from_name] never raises, whatever the file name and
    whatever python-dateutil does with it: it returns the date of the first
    of the three layers that succeeds (a layer that fails hands over to the
    next one), and [None] when the last layer fails too. *)
Theorem extract_date_from_name_never_raises
    (dparse : string -> result datetime) (fname : string) :
  (forall e : exn, extract_date_from_name dparse fname <> Raise e)
  /\ extract_date_from_name dparse fname
     = Ok (first_success
             [layer1 fname; layer2 dparse fname; layer3 dparse fname]).
Proof.
  pose proof (ScriptFacts.extract_date_from_name_eq dparse fname) as E.
  split.
  - intros e. rewrite E. discriminate.
  - exact E.
Qed.






(** C3. When no layer finds a date in the name of a report, the date
    attached to its entry is the file's modification time as a local
    datetime, time of day dropped. *)
Theorem fallback_to_modification_date (h : Host) (f : string) :
  f ∈ files h ->
  extract_date_from_name (dparse h) f = Ok None ->
  let mdate := dt_date (fromtimestamp h (getmtime h (path_join WEEKLY_DIR f))) in
  file_mtime_date h (path_join WEEKLY_DIR f) = mdate
  /\ exists ps : list (string * option date),
       build_pairs h = Ok ps
       /\ (f, Some mdate) ∈ sort_pairs ps
       /\ forall d : option date, (f, d) ∈ sort_pairs ps -> d = Some mdate.
Proof.
  intros Hf Hnone mdate. split; [reflexivity|].
  rewrite ScriptFacts.extract_date_from_name_eq in Hnone.
  injection Hnone as Hnone.
  assert (Hd : derived_date h f = mdate).
  { unfold derived_date. rewrite Hnone. reflexivity. }
  exists (entry h <$> files h).
  split; [apply ScriptFacts.build_pairs_eq|]. split.
  - rewrite ScriptFacts.sort_pairs_perm. apply list_elem_of_fmap.
    exists f. unfold entry. rewrite Hd. auto.
  - intros d Hin. apply ScriptFacts.entries_dated in Hin as [_ Hin].
    cbn [fst snd] in Hin. rewrite Hin, Hd. reflexivity.
Qed.

(** The scenario of the specification: [notes-final.md], modified on
    2024-03-02. *)
Lemma fallback_to_modification_date_notes_final :
  file_mtime_date (sample_host ["notes-final.md"%string])
    (path_join WEEKLY_DIR "notes-final.md") = Date 2024 3 2
  /\ exists ps : list (string * option date),
       build_pairs (sample_host ["notes-final.md"%string]) = Ok ps
       /\ ("notes-final.md"%string, Some (Date 2024 3 2)) ∈ sort_pairs ps
       /\ forall d : option date,
            ("notes-final.md"%string, d) ∈ sort_pairs ps ->
            d = Some (Date 2024 3 2).
Proof.
  apply (fallback_to_modification_date
           (sample_host ["notes-final.md"%string]) "notes-final.md").
  - vm_compute. apply list_elem_of_here.
  - vm_compute. reflexivity.
Defined.


(** The scenario of the specification: the link line of the weekly
    report. *)
Example weekly_link_line :
  link_line ("weekly-2025-09-01_to_2025-09-07.md"%string,
             Some (Date 2025 9 1))
  = ("- [2025-09-01 — weekly-2025-09-01_to_2025-09-07.md]"
     +:+ "(weekly-2025-09-01_to_2025-09-07.md)" +:+ nl).
Proof. vm_compute. reflexivity. Qed.

(** C6. A run leaves the marker file with the text it had, or empty when
    there was none; a second run leaves it as the first one did. *)
Theorem nojekyll_created_once (h h' : Host) (fs : FS) :
  (exists out : string, script h fs = Ok (run h fs, out))
  /\ contents (run h fs) !! nojekyll_path
     = Some (default ""%string (contents fs !! nojekyll_path))
  /\ contents (run h' (run h fs)) !! nojekyll_path
     = contents (run h fs) !! nojekyll_path.
Proof.
  split; [|split].
  - eexists. rewrite ScriptFacts.script_eq, ScriptFacts.run_eq. reflexivity.
  - apply ScriptFacts.lookup_run_nojekyll.
  - rewrite (ScriptFacts.lookup_run_nojekyll h' (run h fs)).
    rewrite ScriptFacts.lookup_run_nojekyll. reflexivity.
Qed.






(** C10. Every entry handed to the sort and to the rendering has a date:
    the first component of its sort key is [False] and its link line
    carries the date. *)
Theorem every_entry_is_dated (h : Host) :
  exists ps : list (string * option date),
    build_pairs h = Ok ps
    /\ (forall e, e ∈ ps -> is_Some (snd e))
    /\ (forall e, e ∈ sort_pairs ps ->
        exists d : date,
          snd e = Some d
          /\ fst (sort_key e) = false
          /\ forall acc : list string,
               lines_step acc e
               = acc ++ ["- [" +:+ isoformat d +:+ " — " +:+ fst e
                         +:+ "](" +:+ fst e +:+ ")" +:+ nl]).
Proof.
  exists (entry h <$> files h).
  split; [apply ScriptFacts.build_pairs_eq|]. split.
  - intros e (f & -> & _)%list_elem_of_fmap. cbn. eauto.
  - intros [f d] [_ Hd]%ScriptFacts.entries_dated. cbn [fst snd] in Hd.
    subst d. exists (derived_date h f). repeat split.
Qed.

(** ** Further facts *)

Module DateFacts.

#[local] Open Scope Z_scope.








Lemma iso_shape_isoformat (d : date) (r : string) :
  iso_shape (isoformat d +:+ r) = Some (isoformat d, r).
Proof.
  unfold isoformat, fmt_04d, fmt_02d. cbv [String.append].
  cbn [iso_shape]. rewrite !PyFacts.is_digit_digit_char. reflexivity.
Qed.

End DateFacts.

Module PatternFacts.

Lemma repeat_class_sound (p : ascii -> bool) (s s' : string)
    (lo : nat) (hi : option nat) :
  s' ∈ repeat_class p lo hi s ->
  exists t : string, s = t +:+ s' /\ item_takes (Item p lo hi) t.
Proof.
  assert (Hstop : forall (s0 : string) (lo0 : nat) (hi0 : option nat),
             s' ∈ match lo0 with O => [s0] | S _ => [] end ->
             exists t : string, s0 = t +:+ s' /\ item_takes (Item p lo0 hi0) t).
  { intros s0 [|n] hi0 Hin; [|inversion Hin].
    apply list_elem_of_singleton in Hin as ->.
    exists EmptyString. split; [reflexivity|].
    unfold item_takes; cbn. destruct hi0; repeat split; lia. }
  revert lo hi. induction s as [|c r IH]; intros lo hi Hin.
  - cbn [repeat_class] in Hin. destruct hi as [[|n]|]; apply Hstop, Hin.
  - cbn [repeat_class] in Hin.
    assert (Hrec : s' ∈ (if p c then repeat_class p (pred lo) (pred <$> hi) r
                                     ++ match lo with O => [String c r]
                                        | S _ => [] end
                         else match lo with O => [String c r] | S _ => [] end)
                   -> hi <> Some O ->
                   exists t : string,
                     String c r = t +:+ s' /\ item_takes (Item p lo hi) t).
    { intros Hin' Hhi. destruct (p c) eqn:Hc; [|apply Hstop, Hin'].
      apply elem_of_app in Hin' as [Hin'|Hin']; [|apply Hstop, Hin'].
      destruct (IH _ _ Hin') as (t & -> & Ht & Hlo & Hhi').
      exists (String c t). split; [reflexivity|].
      unfold item_takes in *; cbn in *. rewrite Hc, Ht.
      repeat split; [lia|].
      destruct hi as [[|n]|]; cbn in *; [congruence|lia|exact I]. }
    destruct hi as [[|n]|]; [apply Hstop, Hin| |]; apply Hrec; congruence.
Qed.

Lemma repeat_class_complete (p : ascii -> bool) (t s' : string)
    (lo : nat) (hi : option nat) :
  item_takes (Item p lo hi) t -> s' ∈ repeat_class p lo hi (t +:+ s').
Proof.
  revert lo hi. induction t as [|c t IH]; intros lo hi (Hp & Hlo & Hhi);
    cbn in Hp, Hlo, Hhi.
  - assert (lo = O) as -> by lia.
    change (EmptyString +:+ s') with s'.
    destruct s' as [|c r]; cbn [repeat_class].
    + destruct hi as [[|n]|]; apply list_elem_of_here.
    + destruct hi as [[|n]|]; [apply list_elem_of_here| |];
        (destruct (p c); [apply elem_of_app; right|]; apply list_elem_of_here).
  - apply andb_true_iff in Hp as [Hc Ht].
    rewrite PyFacts.append_cons. cbn [repeat_class]. rewrite Hc.
    assert (Hin : s' ∈ repeat_class p (pred lo) (pred <$> hi) (t +:+ s')).
    { apply IH. unfold item_takes; cbn. split; [exact Ht|]. split; [lia|].
      destruct hi as [[|n]|]; cbn; [lia|lia|exact I]. }
    destruct hi as [[|n]|]; [lia| |]; apply elem_of_app; left; exact Hin.
Qed.

Lemma match_seq_sound (items : list item) (s s' : string) :
  s' ∈ match_seq items s ->
  exists t : string, s = t +:+ s' /\ seq_takes items t.
Proof.
  revert s. induction items as [|[p lo hi] rest IH]; intros s Hin.
  - apply list_elem_of_singleton in Hin as ->. exists EmptyString.
    split; reflexivity.
  - cbn [match_seq cls Re.lo Re.hi] in Hin.
    apply list_elem_of_bind in Hin as (s1 & Hin2 & Hin1).
    apply repeat_class_sound in Hin1 as (t1 & -> & Ht1).
    apply IH in Hin2 as (t2 & -> & Ht2).
    exists (t1 +:+ t2). rewrite PyFacts.append_assoc. split; [reflexivity|].
    cbn [seq_takes]. eauto.
Qed.

Lemma match_seq_complete (items : list item) (t s' : string) :
  seq_takes items t -> s' ∈ match_seq items (t +:+ s').
Proof.
  revert t. induction items as [|[p lo hi] rest IH]; intros t Ht.
  - cbn in Ht. subst t. apply list_elem_of_here.
  - destruct Ht as (t1 & t2 & -> & Ht1 & Ht2).
    cbn [match_seq cls Re.lo Re.hi]. apply list_elem_of_bind.
    exists (t2 +:+ s'). split; [apply IH, Ht2|].
    rewrite PyFacts.append_assoc. apply repeat_class_complete, Ht1.
Qed.

Lemma match_here_sound (r : pattern) (s s' : string) :
  match_here r s = Some s' ->
  exists t : string, s = t +:+ s' /\ pattern_takes r t.
Proof.
  unfold match_here. intros H. apply head_Some_elem_of in H.
  apply list_elem_of_bind in H as (alt & Hin & Halt).
  apply match_seq_sound in Hin as (t & -> & Ht).
  exists t. split; [reflexivity|]. exists alt. auto.
Qed.

Lemma match_here_complete (r : pattern) (t s' : string) :
  match_here r (t +:+ s') = None -> ~ pattern_takes r t.
Proof.
  unfold match_here. intros H (alt & Halt & Ht).
  apply head_None in H.
  assert (Hin : s' ∈ (alt ← r; match_seq alt (t +:+ s'))).
  { apply list_elem_of_bind. exists alt. split; [|exact Halt].
    apply match_seq_complete, Ht. }
  rewrite H in Hin. inversion Hin.
Qed.

Lemma append_eq_empty (a b : string) : a +:+ b = EmptyString -> b = EmptyString.
Proof.
  destruct a; [intros H; exact H|].
  rewrite PyFacts.append_cons. discriminate.
Qed.

(** What a search returns: the text it found sits in the string at the
    offset it reports, the pattern takes it, and the pattern takes no text
    that starts further left. *)
Lemma search_from_spec (r : pattern) (s : string) (pos : nat) (m : Match) :
  search_from r pos s = Some m ->
  exists pre post : string,
    s = pre +:+ group0 m +:+ post
    /\ m_start m = (pos + String.length pre)%nat
    /\ pattern_takes r (group0 m)
    /\ forall p1 p2 t rest : string,
         pre = p1 +:+ p2 -> p2 <> EmptyString ->
         p2 +:+ group0 m +:+ post = t +:+ rest -> ~ pattern_takes r t.
Proof.
  assert (Hfound : forall (s0 rest : string) (pos0 : nat),
             match_here r s0 = Some rest ->
             exists pre post : string,
               s0 = pre +:+ String.substring 0
                              (String.length s0 - String.length rest) s0
                        +:+ post
               /\ pos0 = (pos0 + String.length pre)%nat
               /\ pattern_takes r
                    (String.substring 0
                       (String.length s0 - String.length rest) s0)
               /\ forall p1 p2 t rest' : string,
                    pre = p1 +:+ p2 -> p2 <> EmptyString ->
                    p2 +:+ String.substring 0
                             (String.length s0 - String.length rest) s0
                       +:+ post = t +:+ rest' -> ~ pattern_takes r t).
  { intros s0 rest pos0 E.
    apply match_here_sound in E as (t & -> & Ht).
    rewrite PyFacts.length_append.
    replace (String.length t + String.length rest - String.length rest)%nat
      with (String.length t) by lia.
    rewrite PyFacts.substring_append_l.
    exists EmptyString, rest. split; [reflexivity|].
    split; [cbn; lia|]. split; [exact Ht|].
    intros p1 p2 ? ? Hsplit Hne. symmetry in Hsplit.
    apply append_eq_empty in Hsplit. contradiction. }
  revert pos m. induction s as [|c s IH]; intros pos m; cbn [search_from].
  - destruct (match_here r EmptyString) as [rest|] eqn:E; [|discriminate].
    intros [= Hm]. subst m. exact (Hfound EmptyString rest pos E).
  - destruct (match_here r (String c s)) as [rest|] eqn:E.
    + intros [= Hm]. subst m. exact (Hfound (String c s) rest pos E).
    + intros Hm. destruct (IH _ _ Hm) as (pre & post & -> & Hpos & Ht & Hleft).
      exists (String c pre), post. cbn [String.length].
      split; [reflexivity|]. split; [lia|]. split; [exact Ht|].
      intros p1 p2 t rest Hsplit Hne Heq.
      destruct p1 as [|c1 p1].
      * change (String c pre = p2) in Hsplit. subst p2.
        rewrite PyFacts.append_cons in Heq. rewrite Heq in E.
        apply (match_here_complete _ _ _ E).
      * rewrite PyFacts.append_cons in Hsplit. injection Hsplit as _ Hsplit.
        apply (Hleft p1 p2 t rest Hsplit Hne Heq).
Qed.

End PatternFacts.

Module SortFacts.

Section Stable.
Context {A K : Type} (key : A -> K) (ltb : K -> K -> bool).
Context (P : A -> Prop) `{!forall x, Decision (P x)}.

(** The entries [P] selects have keys of which none is below another. *)
Hypothesis same_rank : forall x y : A, P x -> P y -> not_below key ltb x y.

Lemma insert_desc_filter (x : A) (l : list A) :
  filter P (insert_desc key ltb x l) = filter P (x :: l).
Proof.
  induction l as [|y l IH]; cbn [insert_desc]; [reflexivity|].
  destruct (ltb (key x) (key y)) eqn:E; [|reflexivity].
  rewrite (filter_cons P y), IH, !filter_cons.
  destruct (decide (P x)) as [Hx|Hx], (decide (P y)) as [Hy|Hy];
    try reflexivity.
  pose proof (same_rank x y Hx Hy) as Hxy. unfold not_below in Hxy. congruence.
Qed.

Lemma sort_reverse_filter (l : list A) :
  filter P (sort_reverse key ltb l) = filter P l.
Proof.
  induction l as [|x l IH]; [reflexivity|].
  unfold sort_reverse in *. cbn [foldr].
  rewrite insert_desc_filter, !filter_cons, IH. reflexivity.
Qed.
End Stable.

Lemma sort_reverse_id {A K} (key : A -> K) (ltb : K -> K -> bool)
    (l : list A) :
  StronglySorted (not_below key ltb) l -> sort_reverse key ltb l = l.
Proof.
  induction 1 as [|x l Hl IH Hx]; [reflexivity|].
  unfold sort_reverse in *. cbn [foldr]. rewrite IH.
  destruct l as [|y l]; [reflexivity|]. cbn [insert_desc].
  apply Forall_cons in Hx as [Hxy _]. unfold not_below in Hxy.
  rewrite Hxy. reflexivity.
Qed.

Lemma date_ltb_irrefl (d : date) : date_ltb d d = false.
Proof.
  apply not_true_iff_false. rewrite PyFacts.date_ltb_lt. lia.
Qed.

Lemma same_date_same_rank (d : option date) (x y : string * option date) :
  snd x = d -> snd y = d -> not_below sort_key key_ltb x y.
Proof.
  intros Hx Hy. unfold not_below, sort_key, key_ltb. rewrite Hx, Hy.
  destruct d; [apply date_ltb_irrefl|reflexivity].
Qed.

End SortFacts.

Module RunFacts.

(** What a run leaves at each path. *)
Lemma lookup_run (h : Host) (fs : FS) (p : string) :
  contents (run h fs) !! p
  = if decide (p = main_index_path)
    then Some (String.concat "" (main_lines (utcnow h)))
    else if decide (p = weekly_index_path)
    then Some (String.concat ""
                 (lines (sort_pairs (entry h <$> files h))))
    else if decide (p = nojekyll_path)
    then Some (default ""%string (contents fs !! nojekyll_path))
    else contents fs !! p.
Proof.
  destruct ScriptFacts.paths_distinct as (Hnw & Hnm & Hwm).
  destruct (decide (p = main_index_path)) as [->|Hm].
  { apply ScriptFacts.lookup_run_main. }
  destruct (decide (p = weekly_index_path)) as [->|Hw].
  { apply ScriptFacts.lookup_run_weekly. }
  destruct (decide (p = nojekyll_path)) as [->|Hn].
  { apply ScriptFacts.lookup_run_nojekyll. }
  rewrite ScriptFacts.run_eq. unfold write_lines, open_append_close.
  cbn [contents]. rewrite !lookup_insert_ne by congruence.
  destruct (contents (makedirs fs) !! nojekyll_path); cbn [contents];
    [reflexivity|].
  rewrite lookup_insert_ne by congruence. reflexivity.
Qed.

Lemma dirs_run (h : Host) (fs : FS) :
  dirs (run h fs) = {[ DOCS ]} ∪ {[ WEEKLY_DIR ]} ∪ dirs fs.
Proof.
  rewrite ScriptFacts.run_eq. unfold write_lines, open_append_close.
  cbn [dirs]. destruct (contents (makedirs fs) !! nojekyll_path); reflexivity.
Qed.

Lemma FS_eq (a b : FS) :
  dirs a = dirs b -> contents a = contents b -> a = b.
Proof. destruct a, b; cbn; intros -> ->; reflexivity. Qed.

Lemma files_with_index (pre post : list string) :
  filter is_report (pre ++ "index.md"%string :: post)
  = filter is_report (pre ++ post).
Proof.
  rewrite !filter_app, filter_cons_False; [reflexivity|].
  vm_compute. intros [].
Qed.

End RunFacts.

Module MoreFacts.

Lemma search_none (r : pattern) (s : string) (pos : nat) :
  search_from r pos s = None ->
  forall pre t post : string, s = pre +:+ t +:+ post -> ~ pattern_takes r t.
Proof.
  revert pos. induction s as [|c s IH]; intros pos; cbn [search_from].
  - destruct (match_here r EmptyString) eqn:E; [discriminate|]. intros _.
    intros pre t post Hs. symmetry in Hs.
    apply PatternFacts.append_eq_empty in Hs. rewrite <- Hs in E.
    apply (PatternFacts.match_here_complete _ _ _ E).
  - destruct (match_here r (String c s)) eqn:E; [discriminate|]. intros Hnone.
    intros [|c' pre] t post Hs.
    + change (String c s = t +:+ post) in Hs. rewrite Hs in E.
      apply (PatternFacts.match_here_complete _ _ _ E).
    + rewrite PyFacts.append_cons in Hs. injection Hs as _ Hs.
      apply (IH _ Hnone pre t post Hs).
Qed.

Lemma link_line_count (es : list (string * option date)) :
  length (filter is_link_line (lines es)) = length es.
Proof.
  rewrite ScriptFacts.lines_eq. unfold listing_document.
  destruct es as [|e es]; [reflexivity|].
  rewrite !filter_cons_False by (vm_compute; intros []).
  rewrite ScriptFacts.filter_link_lines, length_fmap. reflexivity.
Qed.

Lemma entry_ext (h1 h2 : Host) (f : string) :
  (forall s : string, dparse h2 s = dparse h1 s) ->
  (forall p : string, file_mtime_date h2 p = file_mtime_date h1 p) ->
  entry h2 f = entry h1 f.
Proof.
  intros Hd Hm. unfold entry, derived_date, modification_date.
  change (dt_date (fromtimestamp h2 (getmtime h2 (path_join WEEKLY_DIR f))))
    with (file_mtime_date h2 (path_join WEEKLY_DIR f)).
  change (dt_date (fromtimestamp h1 (getmtime h1 (path_join WEEKLY_DIR f))))
    with (file_mtime_date h1 (path_join WEEKLY_DIR f)).
  rewrite Hm. unfold date_from_name, layer2, layer3. rewrite Hd.
  destruct (search date_like f) as [m|]; cbn [mbind option_bind];
    [rewrite Hd|]; reflexivity.
Qed.


End MoreFacts.

(** ** Further properties of the script *)



(** X2. The link text of an entry with a calendar date, read as a file
    name, gives that date back: what [isoformat] writes at its start is
    what the ISO layer of [extract_date_from_name] reads. *)
Theorem link_text_date_round_trip (dparse : string -> result datetime)
    (fname : string) (d : date) :
  date_ok d = true ->
  extract_date_from_name dparse (link_text (fname, Some d)) = Ok (Some d).
Proof.
  intros Hd. unfold link_text. cbn [fst snd].
  assert (Hfirst : first_iso_shaped (isoformat d +:+ " — " +:+ fname)
                   = Some (isoformat d)).
  { pose proof (DateFacts.iso_shape_isoformat d (" — " +:+ fname)) as Hs.
    destruct (isoformat d +:+ " — " +:+ fname) as [|c s];
      cbn [first_iso_shaped]; rewrite Hs; reflexivity. }
  rewrite <- ReFacts.search_iso in Hfirst.
  unfold extract_date_from_name.
  destruct (search date_regex_iso _) as [m|]; [|discriminate].
  injection Hfirst as ->.
  rewrite (PyFacts.strptime_isoformat d Hd). reflexivity.
Qed.

Lemma link_text_date_round_trip_weekly :
  extract_date_from_name dateutil_sample
    (link_text ("notes.md"%string, Some (Date 2024 2 29)))
  = Ok (Some (Date 2024 2 29)).
Proof.
  apply (link_text_date_round_trip dateutil_sample "notes.md"
           (Date 2024 2 29)).
  reflexivity.
Defined.

(** X3. The sort is stable: the entries that share a date (or the lack of
    one) come out in the order they went in. *)
Theorem sort_pairs_stable (l : list (string * option date))
    (d : option date) :
  filter (fun e => snd e = d) (sort_pairs l)
  = filter (fun e => snd e = d) l.
Proof.
  unfold sort_pairs. apply SortFacts.sort_reverse_filter.
  intros x y Hx Hy. exact (SortFacts.same_date_same_rank d x y Hx Hy).
Qed.

(** X4. Sorting a sorted entry list changes nothing. *)
Theorem sort_pairs_idempotent (l : list (string * option date)) :
  sort_pairs (sort_pairs l) = sort_pairs l.
Proof.
  unfold sort_pairs at 1.
  apply SortFacts.sort_reverse_id, ScriptFacts.sort_pairs_sorted.
Qed.

(** X5. What [search] returns, for either pattern: the text found sits in
    the string at the reported offset, the pattern takes it, and the
    pattern takes no text that starts further left. *)
Theorem search_finds_leftmost (r : pattern) (s : string) (m : Match) :
  search r s = Some m ->
  exists pre post : string,
    s = pre +:+ group0 m +:+ post
    /\ m_start m = String.length pre
    /\ pattern_takes r (group0 m)
    /\ forall p1 p2 t rest : string,
         pre = p1 +:+ p2 -> p2 <> EmptyString ->
         p2 +:+ group0 m +:+ post = t +:+ rest -> ~ pattern_takes r t.
Proof.
  intros Hm. apply PatternFacts.search_from_spec in Hm.
  destruct Hm as (pre & post & Hs & Hpos & Ht & Hleft).
  exists pre, post. cbn in Hpos. auto.
Qed.

Lemma search_finds_leftmost_before :
  exists pre post : string,
    "before-15-sept-2025.md"%string = pre +:+ "15-sept-2025" +:+ post
    /\ 7%nat = String.length pre
    /\ pattern_takes date_like "15-sept-2025"
    /\ forall p1 p2 t rest : string,
         pre = p1 +:+ p2 -> p2 <> EmptyString ->
         p2 +:+ "15-sept-2025" +:+ post = t +:+ rest ->
         ~ pattern_takes date_like t.
Proof.
  apply (search_finds_leftmost date_like "before-15-sept-2025.md"
           (MkMatch 7 "15-sept-2025")).
  vm_compute. reflexivity.
Defined.

(** X6. When [search] finds nothing, the pattern takes no substring of the
    string at all. *)
Theorem search_none_no_substring (r : pattern) (s : string) :
  search r s = None ->
  forall t : string, contains s t -> ~ pattern_takes r t.
Proof.
  intros Hnone t (pre & post & Hs).
  exact (MoreFacts.search_none r s 0 Hnone pre t post Hs).
Qed.

Lemma search_none_no_substring_notes :
  search date_like "notes-final.md" = None
  /\ ~ pattern_takes date_like "final".
Proof.
  split; [reflexivity|].
  apply (search_none_no_substring date_like "notes-final.md").
  - vm_compute. reflexivity.
  - exists "notes-"%string, ".md"%string. reflexivity.
Defined.



(** X8. A run changes no file but the marker and the two documents, and
    removes no directory: it adds the two it makes sure of. *)
Theorem run_touches_three_files (h : Host) (fs : FS) (p : string) :
  p <> nojekyll_path -> p <> weekly_index_path -> p <> main_index_path ->
  contents (run h fs) !! p = contents fs !! p
  /\ dirs (run h fs) = {[ DOCS ]} ∪ {[ WEEKLY_DIR ]} ∪ dirs fs.
Proof.
  intros Hn Hw Hm. split; [|apply RunFacts.dirs_run].
  rewrite RunFacts.lookup_run.
  repeat (destruct (decide _); [congruence|]). reflexivity.
Qed.

Lemma run_touches_three_files_report :
  contents (run (sample_host ["a.md"%string]) empty_fs)
    !! "docs/weekly-reports/a.md"%string
  = contents empty_fs !! "docs/weekly-reports/a.md"%string
  /\ dirs (run (sample_host ["a.md"%string]) empty_fs)
     = {[ DOCS ]} ∪ {[ WEEKLY_DIR ]} ∪ dirs empty_fs.
Proof.
  apply (run_touches_three_files (sample_host ["a.md"%string]) empty_fs
           "docs/weekly-reports/a.md");
    intros E; vm_compute in E; discriminate E.
Defined.

(** X9. A run replaces what an earlier run wrote: after two runs the file
    system is what the second run alone would have left, and running twice
    with the same inputs is running once. *)
Theorem later_run_wins (h1 h2 : Host) (fs : FS) :
  run h2 (run h1 fs) = run h2 fs /\ run h1 (run h1 fs) = run h1 fs.
Proof.
  assert (Hgen : forall ha hb : Host, run hb (run ha fs) = run hb fs).
  { intros ha hb. apply RunFacts.FS_eq.
    - rewrite !RunFacts.dirs_run. apply set_eq. intros x.
      rewrite !elem_of_union. tauto.
    - apply map_eq. intros p. rewrite (RunFacts.lookup_run hb (run ha fs)).
      rewrite (RunFacts.lookup_run hb fs).
      rewrite ScriptFacts.lookup_run_nojekyll. cbn [default].
      repeat (destruct (decide _); [reflexivity|]).
      rewrite RunFacts.lookup_run.
      repeat (destruct (decide _); [congruence|]). reflexivity. }
  split; apply Hgen.
Qed.

(** X10. The listing document the script wrote does not feed back into
    the next one: with [index.md] added to the directory listing, and the
    same dates read from the same files, the listing document is the
    same. *)
Theorem listing_ignores_own_index (h1 h2 : Host) (fs1 fs2 : FS)
    (pre post : list string) :
  listdir h1 = pre ++ post ->
  listdir h2 = pre ++ "index.md"%string :: post ->
  (forall s : string, dparse h2 s = dparse h1 s) ->
  (forall p : string, file_mtime_date h2 p = file_mtime_date h1 p) ->
  contents (run h2 fs2) !! weekly_index_path
  = contents (run h1 fs1) !! weekly_index_path.
Proof.
  intros H1 H2 Hd Hm. rewrite !ScriptFacts.lookup_run_weekly.
  assert (Hfiles : files h2 = files h1).
  { unfold files. rewrite H1, H2. apply RunFacts.files_with_index. }
  rewrite Hfiles. do 4 f_equal.
  apply list_fmap_ext. intros i f _. apply MoreFacts.entry_ext; assumption.
Qed.

Lemma listing_ignores_own_index_sample :
  contents (run (sample_host ["a.md"; "index.md"]%string) empty_fs)
    !! weekly_index_path
  = contents (run (sample_host ["a.md"%string]) empty_fs)
      !! weekly_index_path.
Proof.
  apply (listing_ignores_own_index (sample_host ["a.md"%string])
           (sample_host ["a.md"; "index.md"]%string) empty_fs empty_fs
           ["a.md"%string] []); reflexivity.
Defined.

(** X11. The listing document a run writes has one link line for each
    report file of the directory, no more: the names of the entries it is
    written from are the report files, each as often as the directory
    lists it. *)
Theorem every_report_listed_once (h : Host) (fs : FS) :
  exists es : list (string * option date),
    contents (run h fs) !! weekly_index_path
    = Some (String.concat "" (lines es))
    /\ es.*1 ≡ₚ files h
    /\ length (filter is_link_line (lines es)) = length (files h).
Proof.
  exists (sort_pairs (entry h <$> files h)).
  split; [apply ScriptFacts.lookup_run_weekly|].
  assert (Hperm : (sort_pairs (entry h <$> files h)).*1 ≡ₚ files h).
  { rewrite ScriptFacts.sort_pairs_perm, ScriptFacts.entry_names.
    reflexivity. }
  split; [exact Hperm|].
  rewrite MoreFacts.link_line_count, <- (length_fmap fst).
  apply Permutation_length, Hperm.
Qed.

(** X12. The landing document shows the clock to the minute: two runs whose
    clocks agree on the date, the hour and the minute write the same
    landing document, whatever the seconds. *)
Theorem landing_document_to_the_minute (h1 h2 : Host) (fs1 fs2 : FS) :
  dt_date (utcnow h1) = dt_date (utcnow h2) ->
  hour (utcnow h1) = hour (utcnow h2) ->
  minute (utcnow h1) = minute (utcnow h2) ->
  contents (run h1 fs1) !! main_index_path
  = contents (run h2 fs2) !! main_index_path.
Proof.
  intros Hd Hh Hm. rewrite !ScriptFacts.lookup_run_main.
  unfold main_lines, strftime_minute_utc. rewrite Hd, Hh, Hm. reflexivity.
Qed.

Lemma landing_document_to_the_minute_seconds :
  contents
    (run (MkHost Z ["a.md"%string] (fun _ => 0%Z)
            (fun _ => Datetime (Date 2024 3 2) 12 0 0)
            (Datetime (Date 2025 9 20) 8 30 1) dateutil_sample) empty_fs)
    !! main_index_path
  = contents (run (sample_host []) empty_fs) !! main_index_path.
Proof.
  apply (landing_document_to_the_minute
           (MkHost Z ["a.md"%string] (fun _ => 0%Z)
              (fun _ => Datetime (Date 2024 3 2) 12 0 0)
              (Datetime (Date 2025 9 20) 8 30 1) dateutil_sample)
           (sample_host []) empty_fs empty_fs); reflexivity.
Defined.
